(** * Substance: property annotations and the find-and-replace command

  A shallow embedding of [src/model/PropertyAnnotation.js] and
  [src/packages/find-and-replace/FindAndReplaceCommand.js], followed by
  the properties of these two classes.

  Conventions of the embedding:
  - a JavaScript string is the list of its UTF-16 code units;
  - offsets (schema type "number") are integers, modelled as [Z];
  - a path (schema type array of strings) is a [list string];
  - a method that may throw returns a [Result];
  - [tx.set] is threaded through an explicit transaction state;
  - [console.warn] appends to an explicit console. *)

From Stdlib Require Import ZArith Ascii String List Lia.
From stdpp Require Import base option list strings gmap.

Local Open Scope string_scope.
Local Open Scope list_scope.
Local Open Scope Z_scope.

(** ** JavaScript values used by the two classes *)

Module JS.

(** What a [throw] carries: [new Error(msg)], or the [TypeError] raised
    by the engine when a member of [undefined] (or a missing method) is
    used. *)
Inductive Exception :=
| Error (message : string)
| TypeError.

Inductive Result (A : Type) :=
| Return (a : A)
| Throw (e : Exception).
Arguments Return {A} a.
Arguments Throw {A} e.

(** A string is its sequence of UTF-16 code units; [length] counts them. *)
Definition CodeUnit := N.
Definition String := list CodeUnit.

(** Code units of an ASCII literal. *)
Definition str (s : string) : String :=
  map N_of_ascii (list_ascii_of_string s).

(** [String.prototype.substring(start, end)] on integer arguments:
    both ends are clamped to [0, length], swapped when out of order, and
    the code units from the smaller (inclusive) to the larger (exclusive)
    are returned. *)
Definition substring (text : String) (start end_ : Z) : String :=
  let len := Z.of_nat (length text) in
  let finalStart := Z.min (Z.max start 0) len in
  let finalEnd := Z.min (Z.max end_ 0) len in
  let from := Z.min finalStart finalEnd in
  let to := Z.max finalStart finalEnd in
  take (Z.to_nat (to - from)) (drop (Z.to_nat from) text).

(** Code that calls methods with side effects runs on a state [S]: a
    computation gives a result, or throws, and leaves a state behind. A
    [throw] keeps the writes made before it: nothing is rolled back. *)
Definition M (S A : Type) : Type := S -> Result A * S.

Definition ret {S A} (a : A) : M S A := fun s => (Return a, s).

Definition throw {S A} (e : Exception) : M S A := fun s => (Throw e, s).

Definition bind {S A B} (c : M S A) (k : A -> M S B) : M S B :=
  fun s =>
    match c s with
    | (Return a, s') => k a s'
    | (Throw e, s') => (Throw e, s')
    end.

(** [if (b) { c }] *)
Definition when {S} (b : bool) (c : M S unit) : M S unit :=
  if b then c else ret tt.

End JS.

Notation "x <- c1 ;; c2" := (JS.bind c1 (fun x => c2))
  (at level 100, c1 at next level, right associativity).
Notation "c1 ;; c2" := (JS.bind c1 (fun _ => c2))
  (at level 100, right associativity).

Abbreviation Path := (list string).

(** ** util/isArrayEqual *)

(** Modelled from the spec: [isArrayEqual] is imported from
    [../util/isArrayEqual], a module that is not embedded here. The
    specification uses it as equality of two paths, element by element:
    the arrays have the same length and agree at every index. *)
Fixpoint isArrayEqual_from (i : nat) (n : nat) (arr1 arr2 : Path) : bool :=
  match n with
  | O => true
  | S n' =>
      match arr1 !! i, arr2 !! i with
      | Some x, Some y =>
          if String.eqb x y then isArrayEqual_from (S i) n' arr1 arr2 else false
      | _, _ => false
      end
  end.

Definition isArrayEqual (arr1 arr2 : Path) : bool :=
  if Nat.eqb (length arr1) (length arr2)
  then isArrayEqual_from 0 (length arr1) arr1 arr2
  else false.

(** ** The document model seen by an annotation *)

(** A property value: text, a number or a path. *)
Inductive Value :=
| VString (s : JS.String)
| VNumber (n : Z)
| VPath (p : Path).

(** Modelled from the spec: the document ([document.get(path) -> text])
    belongs to a module that is not embedded here. It is a finite map from
    property paths to values; [get] of a path that is not there is
    [undefined]. *)
Module Document.
Record t := { properties : gmap Path Value }.
Definition get (doc : t) (path : Path) : option Value :=
  properties doc !! path.
End Document.

(** Modelled from the spec: the transaction handle ([tx], a mutation
    handle exposing [set(fieldPath, value)]) belongs to a module that is
    not embedded here. It holds the document being edited and the mutations
    recorded so far; [set] writes the property and records the mutation. *)
Module Tx.
Record Mutation := { target : Path; value : Value }.
Record t := { doc : Document.t; recorded : list Mutation }.

Definition set (fieldPath : Path) (v : Value) : JS.M t unit :=
  fun tx =>
    (JS.Return tt,
     {| doc := {| Document.properties :=
                    <[fieldPath := v]> (Document.properties (doc tx)) |};
        recorded := recorded tx ++ [ {| target := fieldPath; value := v |} ] |}).
End Tx.

(** ** model/PropertyAnnotation *)

Module Coordinate.
(** A coordinate as the selection exposes it: [path] and [offset]. *)
Record t := { path : Path; offset : Z }.
End Coordinate.

Module Selection.
(** Modelled from the spec: the selection classes belong to modules that
    are not embedded here. A selection is what [PropertyAnnotation]
    observes of it: the answers of [isNull()] and [isPropertySelection()],
    the [start] and [end] coordinates, and the [path], [startOffset] and
    [endOffset] members. *)
Record t := {
  isNull : bool;
  isPropertySelection : bool;
  start : Coordinate.t;
  end_ : Coordinate.t;
  path : Path;
  startOffset : Z;
  endOffset : Z
}.

(** The selection [{type: 'property', path, startOffset, endOffset}]. *)
Definition property (p : Path) (s e : Z) : t :=
  {| isNull := false; isPropertySelection := true;
     start := {| Coordinate.path := p; Coordinate.offset := s |};
     end_ := {| Coordinate.path := p; Coordinate.offset := e |};
     path := p; startOffset := s; endOffset := e |}.

(** The null selection: no range at all. *)
Definition null : t :=
  {| isNull := true; isPropertySelection := false;
     start := {| Coordinate.path := []; Coordinate.offset := 0 |};
     end_ := {| Coordinate.path := []; Coordinate.offset := 0 |};
     path := []; startOffset := 0; endOffset := 0 |}.

(** A container (multi-node) selection from one text property to
    another. *)
Definition container (p1 : Path) (s : Z) (p2 : Path) (e : Z) : t :=
  {| isNull := false; isPropertySelection := false;
     start := {| Coordinate.path := p1; Coordinate.offset := s |};
     end_ := {| Coordinate.path := p2; Coordinate.offset := e |};
     path := p1; startOffset := s; endOffset := e |}.
End Selection.

Module SelectionData.
(** The plain object handed to [createSelection]. *)
Record t := {
  type : string;
  path : Path;
  startOffset : Z;
  endOffset : Z
}.
End SelectionData.

Module PropertyAnnotation.

(** The node: [id] and the attachment ([document], read by
    [getDocument()]) come from the base class [DocumentNode]; [path],
    [startOffset] and [endOffset] are the schema's fields. *)
Record t := {
  id : string;
  path : Path;
  startOffset : Z;
  endOffset : Z;
  document : option Document.t
}.

(** Modelled from the spec: [DocumentNode.getDocument] belongs to the base
    class, which is not embedded here; it yields the document the node is
    attached to, or nothing for a detached node. *)
Definition getDocument (this : t) : option Document.t := document this.

Definition detached_warning : string :=
  "Trying to use an PropertyAnnotation which is not attached to the document.".

(** [getText()]: the result and what was written with [console.warn].
    [text.substring] on something that is not a string throws a
    [TypeError]. *)
Definition getText (this : t) : JS.Result JS.String * list string :=
  match getDocument this with
  | None => (JS.Return (JS.str ""), [detached_warning])
  | Some doc =>
      match Document.get doc (path this) with
      | Some (VString text) =>
          (JS.Return (JS.substring text (startOffset this) (endOffset this)), [])
      | _ => (JS.Throw JS.TypeError, [])
      end
  end.

Definition canSplit (this : t) : bool := true.

Definition isAnchor (this : t) : bool := false.

(** [get startPath()] and [get endPath()]. *)
Definition startPath (this : t) : Path := path this.
Definition endPath (this : t) : Path := path this.

(** [isInsideOf(sel, _strict)] *)
Definition isInsideOf (this : t) (sel : Selection.t) (_strict : bool) : bool :=
  if Selection.isNull sel then false
  else if _strict then
    isArrayEqual (path this) (Selection.path sel) &&
    (startOffset this >? Selection.startOffset sel) &&
    (endOffset this <? Selection.endOffset sel)
  else
    isArrayEqual (path this) (Selection.path sel) &&
    (startOffset this >=? Selection.startOffset sel) &&
    (endOffset this <=? Selection.endOffset sel).

(** [updateRange(tx, sel)], run on the transaction [tx]. Every field of
    [this] is read before the only [tx.set] that can write it. *)
Definition updateRange (this : t) (sel : Selection.t) : JS.M Tx.t unit :=
  JS.when (negb (Selection.isPropertySelection sel))
    (JS.throw (JS.Error "Cannot change to ContainerAnnotation.")) ;;
  JS.when (negb (isArrayEqual (startPath this)
                   (Coordinate.path (Selection.start sel))))
    (Tx.set [id this; "path"] (VPath (Coordinate.path (Selection.start sel)))) ;;
  JS.when (negb (startOffset this =? Coordinate.offset (Selection.start sel)))
    (Tx.set [id this; "startOffset"]
       (VNumber (Coordinate.offset (Selection.start sel)))) ;;
  JS.when (negb (endOffset this =? Coordinate.offset (Selection.end_ sel)))
    (Tx.set [id this; "endOffset"]
       (VNumber (Coordinate.offset (Selection.end_ sel)))).

(** The same method when [this] is the node of the transaction's own
    document, so that a [tx.set] on one of its fields is seen by the reads
    that follow: a field is read from the document of [tx] where that
    document has it. *)
Definition current (this : t) (tx : Tx.t) : t :=
  {| id := id this;
     path := match Document.get (Tx.doc tx) [id this; "path"] with
             | Some (VPath p) => p
             | _ => path this
             end;
     startOffset := match Document.get (Tx.doc tx) [id this; "startOffset"] with
                    | Some (VNumber n) => n
                    | _ => startOffset this
                    end;
     endOffset := match Document.get (Tx.doc tx) [id this; "endOffset"] with
                  | Some (VNumber n) => n
                  | _ => endOffset this
                  end;
     document := document this |}.

Definition read {A : Type} (this : t) (field : t -> A) : JS.M Tx.t A :=
  fun tx => (JS.Return (field (current this tx)), tx).

Definition updateRange_attached (this : t) (sel : Selection.t)
  : JS.M Tx.t unit :=
  JS.when (negb (Selection.isPropertySelection sel))
    (JS.throw (JS.Error "Cannot change to ContainerAnnotation.")) ;;
  p <- read this startPath ;;
  JS.when (negb (isArrayEqual p (Coordinate.path (Selection.start sel))))
    (Tx.set [id this; "path"] (VPath (Coordinate.path (Selection.start sel)))) ;;
  s <- read this startOffset ;;
  JS.when (negb (s =? Coordinate.offset (Selection.start sel)))
    (Tx.set [id this; "startOffset"]
       (VNumber (Coordinate.offset (Selection.start sel)))) ;;
  e <- read this endOffset ;;
  JS.when (negb (e =? Coordinate.offset (Selection.end_ sel)))
    (Tx.set [id this; "endOffset"]
       (VNumber (Coordinate.offset (Selection.end_ sel)))).

(** [getSelection()]. The document's [createSelection] is defined
    elsewhere and is left open: it returns a selection or throws, and what
    it gives is returned (or thrown) as it is. There is no guard on
    [getDocument()], so a detached annotation calls a method of nothing, a
    [TypeError]. *)
Definition getSelection
    (createSelection : Document.t -> SelectionData.t -> JS.Result Selection.t)
    (this : t) : JS.Result Selection.t :=
  match getDocument this with
  | None => JS.Throw JS.TypeError
  | Some doc =>
      createSelection doc
        {| SelectionData.type := "property";
           SelectionData.path := path this;
           SelectionData.startOffset := startOffset this;
           SelectionData.endOffset := endOffset this |}
  end.

End PropertyAnnotation.

(** ** packages/find-and-replace/FindAndReplaceCommand *)

Module FindAndReplaceCommand.
Section Command.

(** The manager class and the shape of a command state are defined
    elsewhere: both are left open. *)
Context {Manager CommandState : Type}.

(** Modelled from the spec: the editor session (exposing
    [getManager(name)]) belongs to a module that is not embedded here. It
    holds its managers by name; a name that is not registered gives
    [undefined]. *)
Record EditorSession := { managers : gmap string Manager }.

Definition getManager (editorSession : EditorSession) (name : string)
  : option Manager :=
  managers editorSession !! name.

(** The manager's own [getCommandState()]: any computation on the
    session. *)
Variable Manager_getCommandState : Manager -> JS.M EditorSession CommandState.

(** [getCommandState({editorSession})]; calling a method of [undefined]
    throws a [TypeError]. *)
Definition getCommandState : JS.M EditorSession CommandState :=
  fun editorSession =>
    match getManager editorSession "find-and-replace" with
    | Some findAndReplaceManager =>
        JS.bind (Manager_getCommandState findAndReplaceManager)
          (fun findAndReplaceState => JS.ret findAndReplaceState)
          editorSession
    | None => (JS.Throw JS.TypeError, editorSession)
    end.

(** [execute()] does nothing. *)
Definition execute : JS.M EditorSession unit := JS.ret tt.

End Command.
Arguments EditorSession Manager : clear implicits.
End FindAndReplaceCommand.

(** ** Specification-side definitions and sample data *)

(** The [tx.set] calls the specification asks of [updateRange]: one for
    each of [path], [startOffset] and [endOffset] whose value in the
    annotation is not the one the selection's coordinates carry, in this
    order. *)
Definition differing_fields (this : PropertyAnnotation.t) (sel : Selection.t)
  : list Tx.Mutation :=
  (if decide (PropertyAnnotation.path this = Coordinate.path (Selection.start sel))
   then []
   else [ {| Tx.target := [PropertyAnnotation.id this; "path"];
             Tx.value := VPath (Coordinate.path (Selection.start sel)) |} ])
  ++
  (if decide (PropertyAnnotation.startOffset this
              = Coordinate.offset (Selection.start sel))
   then []
   else [ {| Tx.target := [PropertyAnnotation.id this; "startOffset"];
             Tx.value := VNumber (Coordinate.offset (Selection.start sel)) |} ])
  ++
  (if decide (PropertyAnnotation.endOffset this
              = Coordinate.offset (Selection.end_ sel))
   then []
   else [ {| Tx.target := [PropertyAnnotation.id this; "endOffset"];
             Tx.value := VNumber (Coordinate.offset (Selection.end_ sel)) |} ]).

(** Calling [tx.set] for each mutation of a list, in order. *)
Definition perform (ms : list Tx.Mutation) (tx : Tx.t) : Tx.t :=
  foldl (fun tx' m => snd (Tx.set (Tx.target m) (Tx.value m) tx')) tx ms.

(** The annotation with the range of the selection's coordinates. *)
Definition with_range_of (this : PropertyAnnotation.t) (sel : Selection.t)
  : PropertyAnnotation.t :=
  {| PropertyAnnotation.id := PropertyAnnotation.id this;
     PropertyAnnotation.path := Coordinate.path (Selection.start sel);
     PropertyAnnotation.startOffset := Coordinate.offset (Selection.start sel);
     PropertyAnnotation.endOffset := Coordinate.offset (Selection.end_ sel);
     PropertyAnnotation.document := PropertyAnnotation.document this |}.

(** The transaction's document holds the three fields of [this]. *)
Definition holds_fields (tx : Tx.t) (this : PropertyAnnotation.t) : Prop :=
  Document.get (Tx.doc tx) [PropertyAnnotation.id this; "path"]
    = Some (VPath (PropertyAnnotation.path this)) /\
  Document.get (Tx.doc tx) [PropertyAnnotation.id this; "startOffset"]
    = Some (VNumber (PropertyAnnotation.startOffset this)) /\
  Document.get (Tx.doc tx) [PropertyAnnotation.id this; "endOffset"]
    = Some (VNumber (PropertyAnnotation.endOffset this)).

(** The annotation of the class documentation: [s1] over the text
    property [['p1', 'content']], from 10 to 19. *)
Definition sample_path : Path := ["p1"; "content"].

Definition sample_text : JS.String := JS.str "Hello, wonderful world!".

Definition sample_doc : Document.t :=
  {| Document.properties := {[ sample_path := VString sample_text ]} |}.

Definition sample_s1 : PropertyAnnotation.t :=
  {| PropertyAnnotation.id := "s1";
     PropertyAnnotation.path := sample_path;
     PropertyAnnotation.startOffset := 10;
     PropertyAnnotation.endOffset := 19;
     PropertyAnnotation.document := Some sample_doc |}.

Definition sample_detached : PropertyAnnotation.t :=
  {| PropertyAnnotation.id := "s1";
     PropertyAnnotation.path := sample_path;
     PropertyAnnotation.startOffset := 10;
     PropertyAnnotation.endOffset := 19;
     PropertyAnnotation.document := None |}.

Definition sample_tx : Tx.t :=
  {| Tx.doc := sample_doc; Tx.recorded := [] |}.

(** A session with one manager, whose command state is a number that the
    manager reports as it is. *)
Definition sample_session : FindAndReplaceCommand.EditorSession nat :=
  {| FindAndReplaceCommand.managers := {[ "find-and-replace" := 7%nat ]} |}.

Definition sample_manager_state (m : nat)
  : JS.M (FindAndReplaceCommand.EditorSession nat) nat :=
  JS.ret m.

(** A session in which no manager is registered. *)
Definition sample_empty_session : FindAndReplaceCommand.EditorSession nat :=
  {| FindAndReplaceCommand.managers := ∅ |}.

(** A selection factory that builds the property selection a descriptor
    describes. *)
Definition sample_createSelection (doc : Document.t) (data : SelectionData.t)
  : JS.Result Selection.t :=
  JS.Return
    (Selection.property (SelectionData.path data)
       (SelectionData.startOffset data) (SelectionData.endOffset data)).

(** A selection factory that refuses every descriptor. *)
Definition sample_failing_createSelection (doc : Document.t)
    (data : SelectionData.t) : JS.Result Selection.t :=
  JS.Throw (JS.Error "Illegal selection type").

(** A second annotation of the sample text, around [sample_s1]. *)
Definition sample_outer : PropertyAnnotation.t :=
  {| PropertyAnnotation.id := "s2";
     PropertyAnnotation.path := sample_path;
     PropertyAnnotation.startOffset := 7;
     PropertyAnnotation.endOffset := 22;
     PropertyAnnotation.document := Some sample_doc |}.

(** An annotation of a text property the sample document does not have. *)
Definition sample_dangling : PropertyAnnotation.t :=
  {| PropertyAnnotation.id := "s3";
     PropertyAnnotation.path := ["p9"; "content"];
     PropertyAnnotation.startOffset := 0;
     PropertyAnnotation.endOffset := 4;
     PropertyAnnotation.document := Some sample_doc |}.

(** ** Properties *)

(** *** [isArrayEqual] decides equality of paths *)

Lemma isArrayEqual_from_true (n i : nat) (arr1 arr2 : Path) :
  isArrayEqual_from i n arr1 arr2 = true <->
  forall k : nat, (i <= k < i + n)%nat ->
    is_Some (arr1 !! k) /\ arr1 !! k = arr2 !! k.
Proof.
  revert i. induction n as [|n IH]; intros i; simpl.
  - split; [intros _ k Hk; lia | reflexivity].
  - destruct (arr1 !! i) as [x|] eqn:E1.
    + destruct (arr2 !! i) as [y|] eqn:E2.
      * destruct (String.eqb_spec x y) as [->|Hxy].
        -- rewrite IH. split.
           ++ intros H k Hk. destruct (decide (k = i)) as [->|Hne].
              ** rewrite E1, E2. split; [eauto | reflexivity].
              ** apply H. lia.
           ++ intros H k Hk. apply H. lia.
        -- split; [discriminate|]. intros H.
           destruct (H i ltac:(lia)) as [_ Heq].
           rewrite E1, E2 in Heq. congruence.
      * split; [discriminate|]. intros H.
        destruct (H i ltac:(lia)) as [_ Heq].
        rewrite E1, E2 in Heq. discriminate.
    + split; [discriminate|]. intros H.
      destruct (H i ltac:(lia)) as [[x Hx] _].
      rewrite E1 in Hx. discriminate.
Qed.

Lemma isArrayEqual_eq (arr1 arr2 : Path) :
  isArrayEqual arr1 arr2 = true <-> arr1 = arr2.
Proof.
  unfold isArrayEqual. destruct (Nat.eqb_spec (length arr1) (length arr2)) as [Hlen|Hlen].
  - rewrite isArrayEqual_from_true. split.
    + intros H. apply list_eq. intros k.
      destruct (decide (k < length arr1)%nat) as [Hk|Hk].
      * apply H. lia.
      * rewrite !lookup_ge_None_2 by lia. reflexivity.
    + intros -> k Hk. split; [|reflexivity].
      apply lookup_lt_is_Some. lia.
  - split; [discriminate|]. intros ->. contradiction.
Qed.

(** Element by element: same length and the same entry at every index. *)
Lemma isArrayEqual_elementwise (arr1 arr2 : Path) :
  isArrayEqual arr1 arr2 = true <->
  length arr1 = length arr2 /\ forall i : nat, arr1 !! i = arr2 !! i.
Proof.
  rewrite isArrayEqual_eq. split.
  - intros ->. split; reflexivity.
  - intros [_ H]. apply list_eq, H.
Qed.

(** *** [substring] inside the bounds *)

Lemma substring_in_range (text : JS.String) (s e : Z) :
  0 <= s <= e /\ e <= Z.of_nat (length text) ->
  JS.substring text s e = take (Z.to_nat (e - s)) (drop (Z.to_nat s) text).
Proof.
  intros H. unfold JS.substring.
  replace (Z.min (Z.max s 0) (Z.of_nat (length text))) with s by lia.
  replace (Z.min (Z.max e 0) (Z.of_nat (length text))) with e by lia.
  replace (Z.min s e) with s by lia.
  replace (Z.max s e) with e by lia.
  reflexivity.
Qed.

Lemma substring_length (text : JS.String) (s e : Z) :
  0 <= s <= e /\ e <= Z.of_nat (length text) ->
  Z.of_nat (length (JS.substring text s e)) = e - s.
Proof.
  intros H. rewrite substring_in_range by exact H.
  rewrite length_take, length_drop. lia.
Qed.

Lemma substring_splits (text : JS.String) (s e : Z) :
  0 <= s <= e /\ e <= Z.of_nat (length text) ->
  text = take (Z.to_nat s) text ++ JS.substring text s e ++ drop (Z.to_nat e) text
  /\ Z.of_nat (length (take (Z.to_nat s) text)) = s.
Proof.
  intros H. rewrite substring_in_range by exact H. split.
  - rewrite <- (take_drop (Z.to_nat s) text) at 1. f_equal.
    rewrite <- (take_drop (Z.to_nat (e - s)) (drop (Z.to_nat s) text)) at 1.
    f_equal. rewrite drop_drop. f_equal. lia.
  - rewrite length_take. lia.
Qed.

(** *** [getText] *)

(** C1: for an annotation attached to a document whose text at [path] is
    [text], with [0 <= startOffset <= endOffset <= length text], [getText()]
    returns (without a warning) a string of length [endOffset - startOffset]
    which is the part of [text] that starts at [startOffset] (inclusive)
    and stops at [endOffset] (exclusive). *)
Theorem getText_attached (this : PropertyAnnotation.t) (doc : Document.t)
    (text : JS.String) :
  PropertyAnnotation.getDocument this = Some doc ->
  Document.get doc (PropertyAnnotation.path this) = Some (VString text) ->
  0 <= PropertyAnnotation.startOffset this <= PropertyAnnotation.endOffset this
  /\ PropertyAnnotation.endOffset this <= Z.of_nat (length text) ->
  exists r : JS.String,
    PropertyAnnotation.getText this = (JS.Return r, []) /\
    Z.of_nat (length r)
      = PropertyAnnotation.endOffset this - PropertyAnnotation.startOffset this /\
    exists before after : JS.String,
      text = before ++ r ++ after /\
      Z.of_nat (length before) = PropertyAnnotation.startOffset this.
Proof.
  intros Hdoc Hget Hrange.
  exists (JS.substring text (PropertyAnnotation.startOffset this)
            (PropertyAnnotation.endOffset this)).
  split; [|split].
  - unfold PropertyAnnotation.getText. rewrite Hdoc, Hget. reflexivity.
  - apply substring_length, Hrange.
  - destruct (substring_splits text _ _ Hrange) as [Hsplit Hlen].
    eexists _, _. split; [exact Hsplit | exact Hlen].
Qed.

Lemma getText_attached_witness :
  exists r : JS.String,
    PropertyAnnotation.getText sample_s1 = (JS.Return r, []) /\
    Z.of_nat (length r) = 19 - 10 /\
    exists before after : JS.String,
      sample_text = before ++ r ++ after /\ Z.of_nat (length before) = 10.
Proof.
  apply (getText_attached sample_s1 sample_doc sample_text).
  - reflexivity.
  - vm_compute. reflexivity.
  - vm_compute. intuition discriminate.
Defined.

(** On the sample the nine code units from 10 to 19 are ["derful wo"]. *)
Example getText_sample :
  PropertyAnnotation.getText sample_s1 = (JS.Return (JS.str "derful wo"), []).
Proof. vm_compute. reflexivity. Qed.

(** The nine code units are not those of ["wonderful"], which sits at 7 to
    16 in the sample text. *)
Example getText_sample_not_wonderful :
  PropertyAnnotation.getText sample_s1 <> (JS.Return (JS.str "wonderful"), [])
  /\ JS.substring sample_text 7 16 = JS.str "wonderful".
Proof. split; [vm_compute; discriminate | vm_compute; reflexivity]. Qed.

(** C6: for an annotation that is not attached to a document, [getText()]
    returns the empty string; it does not throw, and writes one warning to
    the console. *)
Theorem getText_detached (this : PropertyAnnotation.t) :
  PropertyAnnotation.getDocument this = None ->
  PropertyAnnotation.getText this
    = (JS.Return (JS.str ""), [PropertyAnnotation.detached_warning])
  /\ JS.str "" = [].
Proof.
  intros Hdoc. unfold PropertyAnnotation.getText. rewrite Hdoc.
  split; reflexivity.
Qed.

Lemma getText_detached_witness :
  PropertyAnnotation.getText sample_detached
    = (JS.Return (JS.str ""), [PropertyAnnotation.detached_warning])
  /\ JS.str "" = [].
Proof. apply (getText_detached sample_detached). reflexivity. Defined.

(** *** [isInsideOf] *)

(** The test made on a selection that is not null, with the comparisons
    read as propositions. *)
Lemma isInsideOf_not_null (this : PropertyAnnotation.t) (sel : Selection.t)
    (strict : bool) :
  Selection.isNull sel = false ->
  PropertyAnnotation.isInsideOf this sel strict = true <->
  PropertyAnnotation.path this = Selection.path sel /\
  if strict
  then PropertyAnnotation.startOffset this > Selection.startOffset sel /\
       PropertyAnnotation.endOffset this < Selection.endOffset sel
  else PropertyAnnotation.startOffset this >= Selection.startOffset sel /\
       PropertyAnnotation.endOffset this <= Selection.endOffset sel.
Proof.
  intros Hnull. unfold PropertyAnnotation.isInsideOf. rewrite Hnull.
  destruct strict; rewrite !andb_true_iff, isArrayEqual_eq.
  - rewrite Z.gtb_gt, Z.ltb_lt. tauto.
  - rewrite Z.geb_ge, Z.leb_le. tauto.
Qed.

(** C2: on a selection that is not null, [isInsideOf(sel, true)] is true
    exactly when the paths are equal, [startOffset > sel.startOffset] and
    [endOffset < sel.endOffset]; when a boundary touches it is false, so it
    is false on a selection with the annotation's own range. *)
Theorem isInsideOf_strict (this : PropertyAnnotation.t) (sel : Selection.t) :
  Selection.isNull sel = false ->
  (PropertyAnnotation.isInsideOf this sel true = true <->
     PropertyAnnotation.path this = Selection.path sel /\
     PropertyAnnotation.startOffset this > Selection.startOffset sel /\
     PropertyAnnotation.endOffset this < Selection.endOffset sel) /\
  (PropertyAnnotation.startOffset this = Selection.startOffset sel \/
   PropertyAnnotation.endOffset this = Selection.endOffset sel ->
     PropertyAnnotation.isInsideOf this sel true = false).
Proof.
  intros Hnull.
  pose proof (isInsideOf_not_null this sel true Hnull) as Hiff.
  split; [exact Hiff|].
  intros Htouch.
  destruct (PropertyAnnotation.isInsideOf this sel true) eqn:E; [|reflexivity].
  destruct Hiff as [Hiff _]. specialize (Hiff eq_refl). lia.
Qed.

Lemma isInsideOf_strict_witness :
  (PropertyAnnotation.isInsideOf sample_s1
     (Selection.property sample_path 10 19) true = true <->
     sample_path = sample_path /\ 10 > 10 /\ 19 < 19) /\
  (10 = 10 \/ 19 = 19 ->
     PropertyAnnotation.isInsideOf sample_s1
       (Selection.property sample_path 10 19) true = false).
Proof.
  apply (isInsideOf_strict sample_s1 (Selection.property sample_path 10 19)).
  reflexivity.
Defined.

(** C3: on a selection that is not null, [isInsideOf(sel, false)] is true
    exactly when the paths are equal, [startOffset >= sel.startOffset] and
    [endOffset <= sel.endOffset]. *)
Theorem isInsideOf_non_strict (this : PropertyAnnotation.t) (sel : Selection.t) :
  Selection.isNull sel = false ->
  PropertyAnnotation.isInsideOf this sel false = true <->
  PropertyAnnotation.path this = Selection.path sel /\
  PropertyAnnotation.startOffset this >= Selection.startOffset sel /\
  PropertyAnnotation.endOffset this <= Selection.endOffset sel.
Proof.
  intros Hnull. exact (isInsideOf_not_null this sel false Hnull).
Qed.

Lemma isInsideOf_non_strict_witness :
  PropertyAnnotation.isInsideOf sample_s1
    (Selection.property sample_path 5 25) false = true <->
  sample_path = sample_path /\ 10 >= 5 /\ 19 <= 25.
Proof.
  apply (isInsideOf_non_strict sample_s1 (Selection.property sample_path 5 25)).
  reflexivity.
Defined.

(** The two examples of the specification. *)
Example isInsideOf_sample_non_strict :
  PropertyAnnotation.isInsideOf sample_s1
    (Selection.property sample_path 5 25) false = true.
Proof. vm_compute. reflexivity. Qed.

Example isInsideOf_sample_strict_same_range :
  PropertyAnnotation.isInsideOf sample_s1
    (Selection.property sample_path 10 19) true = false.
Proof. vm_compute. reflexivity. Qed.

(** C7: on a null selection [isInsideOf] is false, whatever the strict
    flag. *)
Theorem isInsideOf_null (this : PropertyAnnotation.t) (sel : Selection.t)
    (strict : bool) :
  Selection.isNull sel = true ->
  PropertyAnnotation.isInsideOf this sel strict = false.
Proof.
  intros Hnull. unfold PropertyAnnotation.isInsideOf. rewrite Hnull. reflexivity.
Qed.

Lemma isInsideOf_null_witness :
  PropertyAnnotation.isInsideOf sample_s1 Selection.null true = false /\
  PropertyAnnotation.isInsideOf sample_s1 Selection.null false = false.
Proof.
  split; apply (isInsideOf_null sample_s1 Selection.null); reflexivity.
Defined.

(** C10: strict containment implies containment: whenever
    [isInsideOf(sel, true)] is true, so is [isInsideOf(sel, false)]. *)
Theorem isInsideOf_strict_implies_non_strict (this : PropertyAnnotation.t)
    (sel : Selection.t) :
  PropertyAnnotation.isInsideOf this sel true = true ->
  PropertyAnnotation.isInsideOf this sel false = true.
Proof.
  unfold PropertyAnnotation.isInsideOf.
  destruct (Selection.isNull sel); [discriminate|].
  rewrite !andb_true_iff. intros [[Hpath Hs] He].
  repeat split; [exact Hpath | lia | lia].
Qed.

Lemma isInsideOf_strict_implies_non_strict_witness :
  PropertyAnnotation.isInsideOf sample_s1
    (Selection.property sample_path 5 25) false = true.
Proof.
  apply (isInsideOf_strict_implies_non_strict sample_s1
           (Selection.property sample_path 5 25)).
  vm_compute. reflexivity.
Defined.

(** *** [startPath] and [endPath] *)

(** C8: [startPath] and [endPath] both return [path], for every
    annotation: the two ends are in the same text property. *)
Theorem startPath_endPath_path (this : PropertyAnnotation.t) :
  PropertyAnnotation.startPath this = PropertyAnnotation.path this /\
  PropertyAnnotation.endPath this = PropertyAnnotation.path this /\
  PropertyAnnotation.startPath this = PropertyAnnotation.endPath this.
Proof. repeat split. Qed.

(** *** [updateRange] *)

Lemma perform_recorded (ms : list Tx.Mutation) (tx : Tx.t) :
  Tx.recorded (perform ms tx) = Tx.recorded tx ++ ms.
Proof.
  revert tx. induction ms as [|m ms IH]; intros tx.
  - simpl. rewrite app_nil_r. reflexivity.
  - change (perform (m :: ms) tx)
      with (perform ms (snd (Tx.set (Tx.target m) (Tx.value m) tx))).
    rewrite IH. destruct m as [target value]. simpl.
    rewrite <- app_assoc. reflexivity.
Qed.

Lemma negb_isArrayEqual (arr1 arr2 : Path) :
  negb (isArrayEqual arr1 arr2) = if decide (arr1 = arr2) then false else true.
Proof.
  destruct (decide (arr1 = arr2)) as [Heq|Hne].
  - apply isArrayEqual_eq in Heq. rewrite Heq. reflexivity.
  - destruct (isArrayEqual arr1 arr2) eqn:E; [|reflexivity].
    apply isArrayEqual_eq in E. contradiction.
Qed.

Lemma negb_Z_eqb (x y : Z) :
  negb (x =? y) = if decide (x = y) then false else true.
Proof.
  destruct (decide (x = y)) as [->|Hne].
  - rewrite Z.eqb_refl. reflexivity.
  - apply Z.eqb_neq in Hne. rewrite Hne. reflexivity.
Qed.

(** On a property selection [updateRange] returns normally after the
    [tx.set] calls of [differing_fields], and nothing else. *)
Lemma updateRange_property_selection (this : PropertyAnnotation.t)
    (sel : Selection.t) (tx : Tx.t) :
  Selection.isPropertySelection sel = true ->
  PropertyAnnotation.updateRange this sel tx
    = (JS.Return tt, perform (differing_fields this sel) tx).
Proof.
  intros Hprop.
  unfold PropertyAnnotation.updateRange, differing_fields,
    PropertyAnnotation.startPath.
  rewrite Hprop, negb_isArrayEqual, !negb_Z_eqb.
  destruct tx as [d r].
  repeat case_decide; reflexivity.
Qed.

(** C4: on a property selection [updateRange] returns normally and the
    mutations it records are exactly the [tx.set] calls for the fields
    among [path], [startOffset], [endOffset] that differ from the
    selection: when only [endOffset] differs, the single mutation of
    [endOffset]; when nothing differs, none, and the transaction is left as
    it was. *)
Theorem updateRange_emits_differing_fields (this : PropertyAnnotation.t)
    (sel : Selection.t) (tx : Tx.t) :
  Selection.isPropertySelection sel = true ->
  exists tx' : Tx.t,
    PropertyAnnotation.updateRange this sel tx = (JS.Return tt, tx') /\
    Tx.recorded tx' = Tx.recorded tx ++ differing_fields this sel /\
    (PropertyAnnotation.path this = Coordinate.path (Selection.start sel) ->
     PropertyAnnotation.startOffset this = Coordinate.offset (Selection.start sel) ->
     PropertyAnnotation.endOffset this <> Coordinate.offset (Selection.end_ sel) ->
     Tx.recorded tx'
       = Tx.recorded tx
         ++ [ {| Tx.target := [PropertyAnnotation.id this; "endOffset"];
                 Tx.value := VNumber (Coordinate.offset (Selection.end_ sel)) |} ]) /\
    (PropertyAnnotation.path this = Coordinate.path (Selection.start sel) ->
     PropertyAnnotation.startOffset this = Coordinate.offset (Selection.start sel) ->
     PropertyAnnotation.endOffset this = Coordinate.offset (Selection.end_ sel) ->
     tx' = tx).
Proof.
  intros Hprop. exists (perform (differing_fields this sel) tx).
  split; [|split; [|split]].
  - apply updateRange_property_selection, Hprop.
  - apply perform_recorded.
  - intros Hp Hs He. rewrite perform_recorded. f_equal.
    unfold differing_fields. repeat case_decide; try contradiction. reflexivity.
  - intros Hp Hs He. unfold differing_fields.
    repeat case_decide; try contradiction. reflexivity.
Qed.

Lemma updateRange_emits_differing_fields_witness :
  exists tx' : Tx.t,
    PropertyAnnotation.updateRange sample_s1
      (Selection.property sample_path 10 21) sample_tx = (JS.Return tt, tx') /\
    Tx.recorded tx'
      = [ {| Tx.target := ["s1"; "endOffset"]; Tx.value := VNumber 21 |} ].
Proof.
  destruct (updateRange_emits_differing_fields sample_s1
              (Selection.property sample_path 10 21) sample_tx eq_refl)
    as [tx' [Hrun [_ [Hend _]]]].
  exists tx'. split; [exact Hrun|].
  apply Hend; [reflexivity | reflexivity | discriminate].
Defined.

(** C5: on a selection that is not a property selection [updateRange]
    throws its error and the transaction is left as it was: no [tx.set] is
    made, nothing is recorded, and the document, with the annotation's
    [path], [startOffset] and [endOffset] in it, is unchanged. *)
Theorem updateRange_rejects_other_selections (this : PropertyAnnotation.t)
    (sel : Selection.t) (tx : Tx.t) :
  Selection.isPropertySelection sel = false ->
  PropertyAnnotation.updateRange this sel tx
    = (JS.Throw (JS.Error "Cannot change to ContainerAnnotation."), tx).
Proof.
  intros Hprop. unfold PropertyAnnotation.updateRange. rewrite Hprop.
  reflexivity.
Qed.

Lemma updateRange_rejects_other_selections_witness :
  PropertyAnnotation.updateRange sample_s1
    (Selection.container sample_path 3 ["p2"; "content"] 4) sample_tx
    = (JS.Throw (JS.Error "Cannot change to ContainerAnnotation."), sample_tx).
Proof.
  apply (updateRange_rejects_other_selections sample_s1
           (Selection.container sample_path 3 ["p2"; "content"] 4) sample_tx).
  reflexivity.
Defined.

(** When the transaction's document holds the annotation, it holds the
    range of the selection after [updateRange]. *)
Lemma updateRange_matches_selection (this : PropertyAnnotation.t)
    (sel : Selection.t) (tx : Tx.t) :
  Selection.isPropertySelection sel = true ->
  holds_fields tx this ->
  holds_fields (snd (PropertyAnnotation.updateRange this sel tx))
    (with_range_of this sel).
Proof.
  intros Hprop (Hp & Hs & He).
  rewrite updateRange_property_selection by exact Hprop.
  unfold holds_fields, differing_fields, Document.get in *.
  destruct tx as [[props] r]. simpl in *.
  repeat case_decide; simpl; simplify_map_eq; repeat split; congruence.
Qed.

(** Reading the fields through the transaction gives the same run: each
    field is read before the only [tx.set] that writes it. *)
Lemma updateRange_attached_eq (this : PropertyAnnotation.t)
    (sel : Selection.t) (tx : Tx.t) :
  PropertyAnnotation.updateRange_attached this sel tx
    = PropertyAnnotation.updateRange (PropertyAnnotation.current this tx) sel tx.
Proof.
  unfold PropertyAnnotation.updateRange_attached, PropertyAnnotation.updateRange,
    PropertyAnnotation.read, PropertyAnnotation.startPath.
  destruct (Selection.isPropertySelection sel); [|reflexivity].
  destruct tx as [[props] r].
  unfold JS.bind, JS.when, JS.ret, JS.throw, Tx.set, PropertyAnnotation.current,
    Document.get; simpl.
  destruct (isArrayEqual _ _); simpl;
    rewrite ?lookup_insert_ne by discriminate;
    destruct (_ =? _); simpl;
    rewrite ?lookup_insert_ne by discriminate;
    reflexivity.
Qed.

(** *** [FindAndReplaceCommand.getCommandState] *)

(** C9, as the code has it: on every session, [getCommandState] looks up
    the manager named ['find-and-replace']; with one registered it is that
    manager's [getCommandState()] and nothing more (the same state or the
    same exception, the same session afterwards); with none registered
    the call on nothing throws a [TypeError] and the session is as
    before. No other manager is ever asked. *)
Theorem getCommandState_every_session {Manager CommandState : Type}
    (Manager_getCommandState :
       Manager -> JS.M (FindAndReplaceCommand.EditorSession Manager) CommandState)
    (editorSession : FindAndReplaceCommand.EditorSession Manager) :
  FindAndReplaceCommand.getCommandState Manager_getCommandState editorSession
  = match FindAndReplaceCommand.getManager editorSession "find-and-replace" with
    | Some manager => Manager_getCommandState manager editorSession
    | None => (JS.Throw JS.TypeError, editorSession)
    end.
Proof.
  unfold FindAndReplaceCommand.getCommandState.
  destruct (FindAndReplaceCommand.getManager editorSession "find-and-replace")
    as [manager|]; [|reflexivity].
  unfold JS.bind, JS.ret.
  destruct (Manager_getCommandState manager editorSession) as [[st|e] s'];
    reflexivity.
Qed.

(** C9 as it was stated, for every session, fails on a session without
    the manager: nothing is there to be asked, no state is returned, and
    the call throws. *)
Lemma getCommandState_without_manager_counterexample :
  FindAndReplaceCommand.getManager sample_empty_session "find-and-replace"
    = None /\
  FindAndReplaceCommand.getCommandState sample_manager_state
    sample_empty_session
    = (JS.Throw JS.TypeError, sample_empty_session) /\
  ~ (exists state : nat,
       fst (FindAndReplaceCommand.getCommandState sample_manager_state
              sample_empty_session) = JS.Return state).
Proof.
  split; [|split].
  - vm_compute. reflexivity.
  - vm_compute. reflexivity.
  - intros [state Hstate]. vm_compute in Hstate. discriminate.
Qed.

(** With the manager registered, the command gives the manager's own
    answer. *)
Example getCommandState_sample :
  FindAndReplaceCommand.getCommandState sample_manager_state sample_session
    = (JS.Return 7%nat, sample_session).
Proof. vm_compute. reflexivity. Qed.

(** ** Further properties of the two classes *)

(** *** [getText] on any offsets *)

Lemma substring_length_clamped (text : JS.String) (s e : Z) :
  Z.of_nat (length (JS.substring text s e))
    = Z.abs (Z.min (Z.max e 0) (Z.of_nat (length text))
             - Z.min (Z.max s 0) (Z.of_nat (length text))).
Proof.
  unfold JS.substring. rewrite length_take, length_drop. lia.
Qed.

Lemma substring_infix (text : JS.String) (s e : Z) :
  exists before after : JS.String,
    text = before ++ JS.substring text s e ++ after.
Proof.
  unfold JS.substring.
  match goal with
  | |- context [take ?n (drop ?from text)] =>
      exists (take from text), (drop n (drop from text));
      rewrite (take_drop n (drop from text)), take_drop
  end.
  reflexivity.
Qed.

Lemma substring_swap (text : JS.String) (s e : Z) :
  JS.substring text s e = JS.substring text e s.
Proof.
  unfold JS.substring.
  rewrite (Z.min_comm (Z.min (Z.max s 0) _)), (Z.max_comm (Z.min (Z.max s 0) _)).
  reflexivity.
Qed.

Lemma substring_app (text : JS.String) (s m e : Z) :
  s <= m <= e ->
  JS.substring text s m ++ JS.substring text m e = JS.substring text s e.
Proof.
  intros H. unfold JS.substring.
  set (len := Z.of_nat (length text)).
  set (cs := Z.min (Z.max s 0) len).
  set (cm := Z.min (Z.max m 0) len).
  set (ce := Z.min (Z.max e 0) len).
  assert (cs <= cm <= ce /\ 0 <= cs) as Hc by (subst cs cm ce len; lia).
  clearbody cs cm ce.
  replace (Z.min cs cm) with cs by lia. replace (Z.max cs cm) with cm by lia.
  replace (Z.min cm ce) with cm by lia. replace (Z.max cm ce) with ce by lia.
  replace (Z.min cs ce) with cs by lia. replace (Z.max cs ce) with ce by lia.
  replace (Z.to_nat cm) with (Z.to_nat cs + Z.to_nat (cm - cs))%nat by lia.
  rewrite <- drop_drop, take_take_drop. f_equal. lia.
Qed.

Lemma slice_of_slice (text : JS.String) (k0 n0 k1 n1 : nat) :
  take n1 (drop k1 (take n0 (drop k0 text)))
    = take (Nat.min n1 (n0 - k1)) (drop (k0 + k1) text).
Proof.
  rewrite skipn_firstn_comm, take_take, drop_drop. reflexivity.
Qed.

Lemma substring_substring (text : JS.String) (s' e' s e : Z) :
  0 <= s' <= s -> s <= e <= e' ->
  JS.substring (JS.substring text s' e') (s - s') (e - s')
    = JS.substring text s e.
Proof.
  intros H1 H2.
  unfold JS.substring at 1. rewrite substring_length_clamped.
  unfold JS.substring. rewrite slice_of_slice.
  set (len := Z.of_nat (length text)).
  assert (0 <= len) as Hlen by (subst len; lia).
  destruct (decide (s' <= len)) as [Hin|Hout].
  - replace (Z.min (Z.max s' 0) len) with s' by lia.
    set (ce' := Z.min (Z.max e' 0) len).
    set (cs := Z.min (Z.max s 0) len).
    set (ce := Z.min (Z.max e 0) len).
    assert (s' <= cs <= ce /\ ce <= ce' /\ cs = Z.min s ce' /\ ce = Z.min e ce')
      as Hc by (subst cs ce ce'; lia).
    clearbody cs ce ce'.
    replace (Z.abs (ce' - s')) with (ce' - s') by lia.
    replace (Z.min (Z.max (s - s') 0) (ce' - s')) with (cs - s') by lia.
    replace (Z.min (Z.max (e - s') 0) (ce' - s')) with (ce - s') by lia.
    replace (Z.min s' ce') with s' by lia. replace (Z.max s' ce') with ce' by lia.
    replace (Z.min (cs - s') (ce - s')) with (cs - s') by lia.
    replace (Z.max (cs - s') (ce - s')) with (ce - s') by lia.
    replace (Z.min cs ce) with cs by lia. replace (Z.max cs ce) with ce by lia.
    f_equal; [lia|]. f_equal. lia.
  - replace (Z.min (Z.max s 0) len) with len by lia.
    replace (Z.min (Z.max e 0) len) with len by lia.
    replace (Z.min len len) with len by lia.
    rewrite (drop_ge text (Z.to_nat len)) by (subst len; lia).
    rewrite take_nil.
    replace (Z.min (Z.max s' 0) len) with len by lia.
    replace (Z.min (Z.max e' 0) len) with len by lia.
    replace (Z.min len len) with len by lia.
    rewrite drop_ge by (subst len; lia). apply take_nil.
Qed.

(** X1: for an attached annotation over a text, whatever its offsets,
    [getText()] returns normally and without a warning; the result is a
    contiguous part of the text, of length the distance between the two
    offsets once each is clamped to [0, length]. *)
Theorem getText_any_offsets (this : PropertyAnnotation.t) (doc : Document.t)
    (text : JS.String) :
  PropertyAnnotation.getDocument this = Some doc ->
  Document.get doc (PropertyAnnotation.path this) = Some (VString text) ->
  exists r : JS.String,
    PropertyAnnotation.getText this = (JS.Return r, []) /\
    Z.of_nat (length r)
      = Z.abs (Z.min (Z.max (PropertyAnnotation.endOffset this) 0)
                 (Z.of_nat (length text))
               - Z.min (Z.max (PropertyAnnotation.startOffset this) 0)
                   (Z.of_nat (length text))) /\
    (length r <= length text)%nat /\
    exists before after : JS.String, text = before ++ r ++ after.
Proof.
  intros Hdoc Hget.
  exists (JS.substring text (PropertyAnnotation.startOffset this)
            (PropertyAnnotation.endOffset this)).
  split; [|split; [|split]].
  - unfold PropertyAnnotation.getText. rewrite Hdoc, Hget. reflexivity.
  - apply substring_length_clamped.
  - unfold JS.substring. rewrite length_take, length_drop. lia.
  - apply substring_infix.
Qed.

Lemma getText_any_offsets_witness :
  exists r : JS.String,
    PropertyAnnotation.getText sample_outer = (JS.Return r, []) /\
    Z.of_nat (length r)
      = Z.abs (Z.min (Z.max 22 0) (Z.of_nat (length sample_text))
               - Z.min (Z.max 7 0) (Z.of_nat (length sample_text))) /\
    (length r <= length sample_text)%nat /\
    exists before after : JS.String, sample_text = before ++ r ++ after.
Proof.
  apply (getText_any_offsets sample_outer sample_doc sample_text).
  - reflexivity.
  - vm_compute. reflexivity.
Defined.

(** X2: exchanging [startOffset] and [endOffset] does not change what
    [getText()] returns or logs: the range is read in increasing order. *)
Theorem getText_offsets_exchanged (this : PropertyAnnotation.t) :
  PropertyAnnotation.getText
    {| PropertyAnnotation.id := PropertyAnnotation.id this;
       PropertyAnnotation.path := PropertyAnnotation.path this;
       PropertyAnnotation.startOffset := PropertyAnnotation.endOffset this;
       PropertyAnnotation.endOffset := PropertyAnnotation.startOffset this;
       PropertyAnnotation.document := PropertyAnnotation.document this |}
  = PropertyAnnotation.getText this.
Proof.
  unfold PropertyAnnotation.getText, PropertyAnnotation.getDocument. simpl.
  destruct (PropertyAnnotation.document this) as [doc|]; [|reflexivity].
  destruct (Document.get doc (PropertyAnnotation.path this)) as [[text|n|p]|];
    try reflexivity.
  rewrite substring_swap. reflexivity.
Qed.

(** X3: cutting an attached annotation at an offset [m] between its two
    ends gives two annotations whose texts, in order, make up the text of
    the whole. *)
Theorem getText_cut (this : PropertyAnnotation.t) (doc : Document.t)
    (text : JS.String) (m : Z) :
  PropertyAnnotation.getDocument this = Some doc ->
  Document.get doc (PropertyAnnotation.path this) = Some (VString text) ->
  PropertyAnnotation.startOffset this <= m <= PropertyAnnotation.endOffset this ->
  exists left right whole : JS.String,
    PropertyAnnotation.getText
      {| PropertyAnnotation.id := PropertyAnnotation.id this;
         PropertyAnnotation.path := PropertyAnnotation.path this;
         PropertyAnnotation.startOffset := PropertyAnnotation.startOffset this;
         PropertyAnnotation.endOffset := m;
         PropertyAnnotation.document := PropertyAnnotation.document this |}
      = (JS.Return left, []) /\
    PropertyAnnotation.getText
      {| PropertyAnnotation.id := PropertyAnnotation.id this;
         PropertyAnnotation.path := PropertyAnnotation.path this;
         PropertyAnnotation.startOffset := m;
         PropertyAnnotation.endOffset := PropertyAnnotation.endOffset this;
         PropertyAnnotation.document := PropertyAnnotation.document this |}
      = (JS.Return right, []) /\
    PropertyAnnotation.getText this = (JS.Return whole, []) /\
    whole = left ++ right.
Proof.
  intros Hdoc Hget Hm.
  unfold PropertyAnnotation.getText, PropertyAnnotation.getDocument in *.
  simpl. rewrite Hdoc, Hget.
  eexists _, _, _. repeat split.
  symmetry. apply substring_app, Hm.
Qed.

Lemma getText_cut_witness :
  exists left right whole : JS.String,
    PropertyAnnotation.getText
      {| PropertyAnnotation.id := "s1";
         PropertyAnnotation.path := sample_path;
         PropertyAnnotation.startOffset := 10;
         PropertyAnnotation.endOffset := 16;
         PropertyAnnotation.document := Some sample_doc |}
      = (JS.Return left, []) /\
    PropertyAnnotation.getText
      {| PropertyAnnotation.id := "s1";
         PropertyAnnotation.path := sample_path;
         PropertyAnnotation.startOffset := 16;
         PropertyAnnotation.endOffset := 19;
         PropertyAnnotation.document := Some sample_doc |}
      = (JS.Return right, []) /\
    PropertyAnnotation.getText sample_s1 = (JS.Return whole, []) /\
    whole = left ++ right.
Proof.
  apply (getText_cut sample_s1 sample_doc sample_text 16).
  - reflexivity.
  - vm_compute. reflexivity.
  - vm_compute. intuition discriminate.
Defined.

(** X4: an attached annotation whose [path] has no text in the document
    (nothing there, or a value that is not a string) makes [getText()]
    throw a [TypeError]; nothing is logged and no empty string is
    returned. *)
Theorem getText_without_text (this : PropertyAnnotation.t) (doc : Document.t) :
  PropertyAnnotation.getDocument this = Some doc ->
  (forall text : JS.String,
     Document.get doc (PropertyAnnotation.path this) <> Some (VString text)) ->
  PropertyAnnotation.getText this = (JS.Throw JS.TypeError, []).
Proof.
  intros Hdoc Hnot. unfold PropertyAnnotation.getText. rewrite Hdoc.
  destruct (Document.get doc (PropertyAnnotation.path this)) as [[text|n|p]|];
    try reflexivity.
  destruct (Hnot text eq_refl).
Qed.

Lemma getText_without_text_witness :
  PropertyAnnotation.getText sample_dangling = (JS.Throw JS.TypeError, []).
Proof.
  apply (getText_without_text sample_dangling sample_doc).
  - reflexivity.
  - intros text. vm_compute. discriminate.
Defined.

(** X5: when an annotation lies inside the range of another annotation of
    the same document ([isInsideOf], not strict, on the property selection
    of the other's range), its text is the part of the other's text at the
    offsets counted from the other's [startOffset]. *)
Theorem getText_inside (inner outer : PropertyAnnotation.t) (doc : Document.t)
    (text : JS.String) :
  PropertyAnnotation.getDocument inner = Some doc ->
  PropertyAnnotation.getDocument outer = Some doc ->
  Document.get doc (PropertyAnnotation.path outer) = Some (VString text) ->
  0 <= PropertyAnnotation.startOffset outer ->
  PropertyAnnotation.startOffset inner <= PropertyAnnotation.endOffset inner ->
  PropertyAnnotation.isInsideOf inner
    (Selection.property (PropertyAnnotation.path outer)
       (PropertyAnnotation.startOffset outer)
       (PropertyAnnotation.endOffset outer)) false = true ->
  exists t_inner t_outer : JS.String,
    PropertyAnnotation.getText inner = (JS.Return t_inner, []) /\
    PropertyAnnotation.getText outer = (JS.Return t_outer, []) /\
    t_inner
      = JS.substring t_outer
          (PropertyAnnotation.startOffset inner - PropertyAnnotation.startOffset outer)
          (PropertyAnnotation.endOffset inner - PropertyAnnotation.startOffset outer).
Proof.
  intros Hin Hout Hget Hpos Hwf Hinside.
  apply isInsideOf_not_null in Hinside; [|reflexivity].
  simpl in Hinside. destruct Hinside as (Hpath & Hs & He).
  unfold PropertyAnnotation.getText.
  rewrite Hin, Hout, Hpath, Hget.
  eexists _, _. repeat split.
  symmetry. apply substring_substring; lia.
Qed.

Lemma getText_inside_witness :
  exists t_inner t_outer : JS.String,
    PropertyAnnotation.getText sample_s1 = (JS.Return t_inner, []) /\
    PropertyAnnotation.getText sample_outer = (JS.Return t_outer, []) /\
    t_inner = JS.substring t_outer (10 - 7) (19 - 7).
Proof.
  apply (getText_inside sample_s1 sample_outer sample_doc sample_text).
  - reflexivity.
  - reflexivity.
  - vm_compute. reflexivity.
  - vm_compute. discriminate.
  - vm_compute. discriminate.
  - vm_compute. reflexivity.
Defined.

(** *** [isInsideOf] on wider and on collapsed selections *)

(** X6: containment is kept when the selection grows: if the annotation is
    inside [sel] (in either mode) and [sel'], not null and on the same
    path, starts no later and ends no earlier than [sel], then the
    annotation is inside [sel'] in the same mode. *)
Theorem isInsideOf_wider_selection (this : PropertyAnnotation.t)
    (sel sel' : Selection.t) (strict : bool) :
  PropertyAnnotation.isInsideOf this sel strict = true ->
  Selection.isNull sel' = false ->
  Selection.path sel' = Selection.path sel ->
  Selection.startOffset sel' <= Selection.startOffset sel ->
  Selection.endOffset sel <= Selection.endOffset sel' ->
  PropertyAnnotation.isInsideOf this sel' strict = true.
Proof.
  intros Hin Hnull' Hpath Hs He.
  destruct (Selection.isNull sel) eqn:Hnull.
  - unfold PropertyAnnotation.isInsideOf in Hin. rewrite Hnull in Hin.
    discriminate.
  - apply isInsideOf_not_null in Hin; [|exact Hnull].
    apply isInsideOf_not_null; [exact Hnull'|].
    rewrite Hpath. destruct Hin as [Hp Hrange].
    split; [exact Hp|]. destruct strict; lia.
Qed.

Lemma isInsideOf_wider_selection_witness :
  PropertyAnnotation.isInsideOf sample_s1
    (Selection.property sample_path 0 30) true = true.
Proof.
  apply (isInsideOf_wider_selection sample_s1
           (Selection.property sample_path 5 25)
           (Selection.property sample_path 0 30) true).
  - vm_compute. reflexivity.
  - reflexivity.
  - reflexivity.
  - vm_compute. discriminate.
  - vm_compute. discriminate.
Defined.

(** X7: on a collapsed selection (a cursor: [startOffset = endOffset], not
    null) an annotation with [startOffset <= endOffset] is never strictly
    inside, and it is inside in the other mode exactly when it is on the
    same path and is itself of zero width at the cursor. *)
Theorem isInsideOf_collapsed_selection (this : PropertyAnnotation.t)
    (sel : Selection.t) :
  Selection.isNull sel = false ->
  Selection.startOffset sel = Selection.endOffset sel ->
  PropertyAnnotation.startOffset this <= PropertyAnnotation.endOffset this ->
  PropertyAnnotation.isInsideOf this sel true = false /\
  (PropertyAnnotation.isInsideOf this sel false = true <->
     PropertyAnnotation.path this = Selection.path sel /\
     PropertyAnnotation.startOffset this = Selection.startOffset sel /\
     PropertyAnnotation.endOffset this = Selection.startOffset sel).
Proof.
  intros Hnull Hcur Hwf. split.
  - destruct (PropertyAnnotation.isInsideOf this sel true) eqn:E; [|reflexivity].
    apply isInsideOf_not_null in E; [|exact Hnull]. lia.
  - rewrite (isInsideOf_not_null this sel false Hnull).
    split; intros (Hp & H1 & H2); (split; [exact Hp | lia]).
Qed.

Lemma isInsideOf_collapsed_selection_witness :
  PropertyAnnotation.isInsideOf sample_s1
    (Selection.property sample_path 12 12) true = false /\
  (PropertyAnnotation.isInsideOf sample_s1
     (Selection.property sample_path 12 12) false = true <->
     sample_path = sample_path /\ 10 = 12 /\ 19 = 12).
Proof.
  apply (isInsideOf_collapsed_selection sample_s1
           (Selection.property sample_path 12 12)).
  - reflexivity.
  - reflexivity.
  - vm_compute. discriminate.
Defined.

(** X8: the two modes can differ only at a touching boundary: when
    neither end of the annotation is equal to the matching end of the
    selection, [isInsideOf(sel, true)] and [isInsideOf(sel, false)] give
    the same answer. *)
Theorem isInsideOf_modes_agree (this : PropertyAnnotation.t)
    (sel : Selection.t) :
  PropertyAnnotation.startOffset this <> Selection.startOffset sel ->
  PropertyAnnotation.endOffset this <> Selection.endOffset sel ->
  PropertyAnnotation.isInsideOf this sel true
    = PropertyAnnotation.isInsideOf this sel false.
Proof.
  intros Hs He. unfold PropertyAnnotation.isInsideOf.
  destruct (Selection.isNull sel); [reflexivity|].
  replace (PropertyAnnotation.startOffset this >? Selection.startOffset sel)
    with (PropertyAnnotation.startOffset this >=? Selection.startOffset sel)
    by lia.
  replace (PropertyAnnotation.endOffset this <? Selection.endOffset sel)
    with (PropertyAnnotation.endOffset this <=? Selection.endOffset sel)
    by lia.
  reflexivity.
Qed.

Lemma isInsideOf_modes_agree_witness :
  PropertyAnnotation.isInsideOf sample_s1
    (Selection.property sample_path 5 25) true
  = PropertyAnnotation.isInsideOf sample_s1
      (Selection.property sample_path 5 25) false.
Proof.
  apply (isInsideOf_modes_agree sample_s1 (Selection.property sample_path 5 25));
    vm_compute; discriminate.
Defined.

(** *** [updateRange] on the transaction's own node *)

(** After [updateRange] on a property selection, the node read through
    the transaction has the range of the selection. *)
Lemma updateRange_attached_current (this : PropertyAnnotation.t)
    (sel : Selection.t) (tx : Tx.t) :
  Selection.isPropertySelection sel = true ->
  fst (PropertyAnnotation.updateRange_attached this sel tx) = JS.Return tt /\
  PropertyAnnotation.current this
    (snd (PropertyAnnotation.updateRange_attached this sel tx))
  = with_range_of this sel.
Proof.
  intros Hprop.
  rewrite updateRange_attached_eq, updateRange_property_selection
    by exact Hprop.
  split; [reflexivity|]. simpl.
  destruct tx as [[props] r]. unfold differing_fields.
  repeat case_decide; simpl in *;
    unfold PropertyAnnotation.current, with_range_of, Document.get in *;
    simpl in *; f_equal;
    rewrite ?lookup_insert_eq, ?lookup_insert_ne by discriminate;
    rewrite ?lookup_insert_eq, ?lookup_insert_ne by discriminate;
    rewrite ?lookup_insert_eq, ?lookup_insert_ne by discriminate;
    assumption || reflexivity.
Qed.

Lemma differing_fields_same_range (this : PropertyAnnotation.t)
    (sel : Selection.t) :
  differing_fields (with_range_of this sel) sel = [].
Proof.
  unfold differing_fields, with_range_of. simpl.
  repeat case_decide; try contradiction. reflexivity.
Qed.

(** X9: on a property selection, [updateRange] on an annotation of the
    transaction's document returns normally, and afterwards the
    annotation's [path], [startOffset] and [endOffset] in that document
    are those of the selection's coordinates; its [id] is as before. *)
Theorem updateRange_takes_selection_range (this : PropertyAnnotation.t)
    (sel : Selection.t) (tx : Tx.t) :
  Selection.isPropertySelection sel = true ->
  exists tx' : Tx.t,
    PropertyAnnotation.updateRange_attached this sel tx = (JS.Return tt, tx') /\
    PropertyAnnotation.path (PropertyAnnotation.current this tx')
      = Coordinate.path (Selection.start sel) /\
    PropertyAnnotation.startOffset (PropertyAnnotation.current this tx')
      = Coordinate.offset (Selection.start sel) /\
    PropertyAnnotation.endOffset (PropertyAnnotation.current this tx')
      = Coordinate.offset (Selection.end_ sel) /\
    PropertyAnnotation.id (PropertyAnnotation.current this tx')
      = PropertyAnnotation.id this.
Proof.
  intros Hprop.
  destruct (updateRange_attached_current this sel tx Hprop) as [Hret Hcur].
  exists (snd (PropertyAnnotation.updateRange_attached this sel tx)).
  split.
  - rewrite <- Hret. apply surjective_pairing.
  - rewrite Hcur. repeat split.
Qed.

Lemma updateRange_takes_selection_range_witness :
  exists tx' : Tx.t,
    PropertyAnnotation.updateRange_attached sample_s1
      (Selection.property ["p2"; "content"] 3 8) sample_tx
      = (JS.Return tt, tx') /\
    PropertyAnnotation.path (PropertyAnnotation.current sample_s1 tx')
      = ["p2"; "content"] /\
    PropertyAnnotation.startOffset (PropertyAnnotation.current sample_s1 tx') = 3 /\
    PropertyAnnotation.endOffset (PropertyAnnotation.current sample_s1 tx') = 8 /\
    PropertyAnnotation.id (PropertyAnnotation.current sample_s1 tx') = "s1".
Proof.
  apply (updateRange_takes_selection_range sample_s1
           (Selection.property ["p2"; "content"] 3 8) sample_tx).
  reflexivity.
Defined.

(** X10: [updateRange] is idempotent on the transaction's own node: a
    second call with the same property selection, right after the first,
    makes no [tx.set] and leaves the transaction as the first call left
    it. *)
Theorem updateRange_twice (this : PropertyAnnotation.t) (sel : Selection.t)
    (tx : Tx.t) :
  Selection.isPropertySelection sel = true ->
  (PropertyAnnotation.updateRange_attached this sel ;;
   PropertyAnnotation.updateRange_attached this sel) tx
  = PropertyAnnotation.updateRange_attached this sel tx.
Proof.
  intros Hprop.
  destruct (updateRange_attached_current this sel tx Hprop) as [Hret Hcur].
  unfold JS.bind at 1.
  destruct (PropertyAnnotation.updateRange_attached this sel tx) as [res tx']
    eqn:Hrun.
  simpl in Hret, Hcur. subst res.
  rewrite updateRange_attached_eq, Hcur, updateRange_property_selection
    by exact Hprop.
  rewrite differing_fields_same_range. reflexivity.
Qed.

Lemma updateRange_twice_witness :
  (PropertyAnnotation.updateRange_attached sample_s1
     (Selection.property sample_path 3 8) ;;
   PropertyAnnotation.updateRange_attached sample_s1
     (Selection.property sample_path 3 8)) sample_tx
  = PropertyAnnotation.updateRange_attached sample_s1
      (Selection.property sample_path 3 8) sample_tx.
Proof.
  apply (updateRange_twice sample_s1 (Selection.property sample_path 3 8)
           sample_tx).
  reflexivity.
Defined.

(** *** What [updateRange] leaves alone *)

Lemma updateRange_cases (this : PropertyAnnotation.t) (sel : Selection.t)
    (tx : Tx.t) :
  exists ms : list Tx.Mutation,
    snd (PropertyAnnotation.updateRange this sel tx) = perform ms tx /\
    (ms = [] \/ ms = differing_fields this sel).
Proof.
  destruct (Selection.isPropertySelection sel) eqn:Hprop.
  - exists (differing_fields this sel).
    rewrite updateRange_property_selection by exact Hprop. auto.
  - exists []. unfold PropertyAnnotation.updateRange. rewrite Hprop. auto.
Qed.

(** X11: whatever the selection, [updateRange] writes no property of the
    transaction's document other than the [path], [startOffset] and
    [endOffset] of this annotation: every other property reads as
    before. *)
Theorem updateRange_other_properties (this : PropertyAnnotation.t)
    (sel : Selection.t) (tx : Tx.t) (property : Path) :
  property <> [PropertyAnnotation.id this; "path"] ->
  property <> [PropertyAnnotation.id this; "startOffset"] ->
  property <> [PropertyAnnotation.id this; "endOffset"] ->
  Document.get (Tx.doc (snd (PropertyAnnotation.updateRange this sel tx))) property
  = Document.get (Tx.doc tx) property.
Proof.
  intros Hp Hs He.
  destruct (updateRange_cases this sel tx) as [ms [-> [->| ->]]];
    [reflexivity|].
  destruct tx as [[props] r].
  unfold differing_fields, Document.get.
  repeat case_decide; simpl;
    rewrite ?lookup_insert_ne by congruence; reflexivity.
Qed.

Lemma updateRange_other_properties_witness :
  Document.get
    (Tx.doc (snd (PropertyAnnotation.updateRange sample_s1
                    (Selection.property ["p2"; "content"] 3 8) sample_tx)))
    sample_path
  = Document.get (Tx.doc sample_tx) sample_path.
Proof.
  apply (updateRange_other_properties sample_s1
           (Selection.property ["p2"; "content"] 3 8) sample_tx sample_path);
    discriminate.
Defined.

(** X12: whatever the selection, [updateRange] keeps the mutations the
    transaction had recorded, in their order, and adds at most three, each
    on a field of this annotation. *)
Theorem updateRange_recorded (this : PropertyAnnotation.t) (sel : Selection.t)
    (tx : Tx.t) :
  exists added : list Tx.Mutation,
    Tx.recorded (snd (PropertyAnnotation.updateRange this sel tx))
      = Tx.recorded tx ++ added /\
    (length added <= 3)%nat /\
    Forall (fun m => exists field : string,
                       Tx.target m = [PropertyAnnotation.id this; field])
      added.
Proof.
  destruct (updateRange_cases this sel tx) as [ms [-> Hms]].
  exists ms. split; [apply perform_recorded|].
  destruct Hms as [-> | ->].
  - split; [simpl; lia | constructor].
  - unfold differing_fields.
    repeat case_decide; simpl; (split; [lia|]);
      repeat (constructor; [eexists; reflexivity|]); constructor.
Qed.

(** *** [getSelection] *)

(** X13: [getSelection()] returns a selection exactly when the annotation
    is attached and the document's [createSelection] returns it for the
    descriptor of type ['property'] with the annotation's [path],
    [startOffset] and [endOffset]; it throws exactly when the annotation
    is detached (a [TypeError]: there is no guard of the kind [getText()]
    has) or, attached, when [createSelection] throws (the same
    exception). *)
Theorem getSelection_outcome
    (createSelection : Document.t -> SelectionData.t -> JS.Result Selection.t)
    (this : PropertyAnnotation.t) :
  let descriptor :=
    {| SelectionData.type := "property";
       SelectionData.path := PropertyAnnotation.path this;
       SelectionData.startOffset := PropertyAnnotation.startOffset this;
       SelectionData.endOffset := PropertyAnnotation.endOffset this |} in
  (forall sel : Selection.t,
     PropertyAnnotation.getSelection createSelection this = JS.Return sel <->
     exists doc : Document.t,
       PropertyAnnotation.getDocument this = Some doc /\
       createSelection doc descriptor = JS.Return sel) /\
  (forall e : JS.Exception,
     PropertyAnnotation.getSelection createSelection this = JS.Throw e <->
     (PropertyAnnotation.getDocument this = None /\ e = JS.TypeError) \/
     exists doc : Document.t,
       PropertyAnnotation.getDocument this = Some doc /\
       createSelection doc descriptor = JS.Throw e).
Proof.
  intros descriptor. unfold PropertyAnnotation.getSelection.
  fold descriptor.
  destruct (PropertyAnnotation.getDocument this) as [doc|]; split.
  - intros sel. split.
    + intros H. exists doc. split; [reflexivity | exact H].
    + intros (doc' & Hdoc & H). injection Hdoc as <-. exact H.
  - intros e. split.
    + intros H. right. exists doc. split; [reflexivity | exact H].
    + intros [[Hdoc _] | (doc' & Hdoc & H)]; [discriminate|].
      injection Hdoc as <-. exact H.
  - intros sel. split; [discriminate|].
    intros (doc' & Hdoc & _). discriminate.
  - intros e. split.
    + intros H. left. split; [reflexivity|]. congruence.
    + intros [[_ ->] | (doc' & Hdoc & _)]; [reflexivity | discriminate].
Qed.

(** The two ways to throw, on the samples. *)
Example getSelection_sample_detached :
  PropertyAnnotation.getSelection sample_createSelection sample_detached
    = JS.Throw JS.TypeError.
Proof. reflexivity. Qed.

Example getSelection_sample_failing_factory :
  PropertyAnnotation.getSelection sample_failing_createSelection sample_s1
    = JS.Throw (JS.Error "Illegal selection type").
Proof. reflexivity. Qed.

(** X14: when the document's factory builds, for a descriptor of type
    ['property'], the property selection it describes, the selection of an
    attached annotation is one that [updateRange] answers with no
    [tx.set] at all, and in which the annotation is inside, but not
    strictly inside. *)
Theorem getSelection_own_range
    (createSelection : Document.t -> SelectionData.t -> JS.Result Selection.t)
    (this : PropertyAnnotation.t) (doc : Document.t) (tx : Tx.t) :
  (forall (d : Document.t) (p : Path) (s e : Z),
     createSelection d
       {| SelectionData.type := "property"; SelectionData.path := p;
          SelectionData.startOffset := s; SelectionData.endOffset := e |}
     = JS.Return (Selection.property p s e)) ->
  PropertyAnnotation.getDocument this = Some doc ->
  exists sel : Selection.t,
    PropertyAnnotation.getSelection createSelection this = JS.Return sel /\
    PropertyAnnotation.updateRange this sel tx = (JS.Return tt, tx) /\
    PropertyAnnotation.isInsideOf this sel false = true /\
    PropertyAnnotation.isInsideOf this sel true = false.
Proof.
  intros Hfactory Hdoc.
  exists (Selection.property (PropertyAnnotation.path this)
            (PropertyAnnotation.startOffset this)
            (PropertyAnnotation.endOffset this)).
  split; [|split; [|split]].
  - unfold PropertyAnnotation.getSelection. rewrite Hdoc, Hfactory. reflexivity.
  - rewrite updateRange_property_selection by reflexivity.
    unfold differing_fields. simpl.
    repeat case_decide; try contradiction. reflexivity.
  - apply isInsideOf_not_null; [reflexivity|]. simpl.
    split; [reflexivity | lia].
  - destruct (PropertyAnnotation.isInsideOf this _ true) eqn:E; [|reflexivity].
    apply isInsideOf_not_null in E; [|reflexivity]. simpl in E. lia.
Qed.

Lemma getSelection_own_range_witness :
  exists sel : Selection.t,
    PropertyAnnotation.getSelection sample_createSelection sample_s1
      = JS.Return sel /\
    PropertyAnnotation.updateRange sample_s1 sel sample_tx
      = (JS.Return tt, sample_tx) /\
    PropertyAnnotation.isInsideOf sample_s1 sel false = true /\
    PropertyAnnotation.isInsideOf sample_s1 sel true = false.
Proof.
  apply (getSelection_own_range sample_createSelection sample_s1 sample_doc
           sample_tx).
  - intros d p s e. reflexivity.
  - reflexivity.
Defined.

(** *** [FindAndReplaceCommand.getCommandState], asked again *)



(** *** [updateRange], then [isInsideOf] *)

(** X16: once [updateRange] has moved an annotation of the transaction's
    document onto a property selection, the annotation is inside that
    selection, and not strictly inside: both boundaries touch. *)
Theorem updateRange_then_isInsideOf (this : PropertyAnnotation.t)
    (p : Path) (s e : Z) (tx : Tx.t) :
  let sel := Selection.property p s e in
  let tx' := snd (PropertyAnnotation.updateRange_attached this sel tx) in
  PropertyAnnotation.isInsideOf (PropertyAnnotation.current this tx') sel false
    = true /\
  PropertyAnnotation.isInsideOf (PropertyAnnotation.current this tx') sel true
    = false.
Proof.
  intros sel tx'. subst tx'.
  destruct (updateRange_attached_current this sel tx eq_refl) as [_ ->].
  split.
  - apply isInsideOf_not_null; [reflexivity|]. simpl.
    split; [reflexivity | lia].
  - destruct (PropertyAnnotation.isInsideOf _ sel true) eqn:E; [|reflexivity].
    apply isInsideOf_not_null in E; [|reflexivity]. simpl in E. lia.
Qed.
